(** * Reddit MCP prompt templates ([src/prompts.py])

    A shallow embedding of the seven prompt templates that
    [register_prompts] hands to the MCP server, and the properties of their
    rendered output.

    Data model.
    - A Python [str] is a [string]: the bytes of its UTF-8 encoding, so the
      arrows of the templates are three bytes each.
    - A Python [int] is a [Z], rendered by [str_int] as [str(int)] does.
    - [Optional[T]] is [option T]; [None] is Python's [None].
    - A Python [list] is a mutable object with an identity.  Lists live in a
      [heap], templates receive and return references ([ref]) to them, and
      every template is a computation in the monad [Py] that threads the
      heap and can raise.  The list comprehensions and [str.join] build
      temporaries that nothing else can reach; they are kept as values.
    - [Message] is the constructor of [fastmcp.prompts.prompt]: it tags the
      text with the given role, and with ["user"] when no role is given. *)

From Stdlib Require Import String Ascii List ZArith Lia Bool DecimalString.
Import ListNotations.
Open Scope string_scope.

(* ================================================================== *)
(** ** Python strings *)

Module PyStr.

(** The line feed, written [\n] in the source. *)
Definition nl : string := String "010"%char EmptyString.

(** The double quote character. *)
Definition dquote : ascii := "034"%char.

(** [sep.join(parts)]. *)
Definition join (sep : string) (parts : list string) : string :=
  String.concat sep parts.

(** The text of a triple-quoted literal, given line by line. *)
Definition lines (ls : list string) : string := join nl ls.

(** [str(n)] and [f"{n}"] for an [int]. *)
Definition str_int (n : Z) : string := NilZero.string_of_int (Z.to_int n).

(** [needle in s]: does [needle] occur in [s] as a contiguous substring? *)
Fixpoint contains (needle s : string) : bool :=
  String.prefix needle s ||
  match s with
  | EmptyString => false
  | String _ rest => contains needle rest
  end.

(** Does the character [c] occur in [s]? *)
Fixpoint has_char (c : ascii) (s : string) : bool :=
  match s with
  | EmptyString => false
  | String d rest => Ascii.eqb c d || has_char c rest
  end.

(** *** [repr] of a [str] and of a list of [str]

    [f"{subreddits}"] formats the list with [str(list)], which is
    [repr(list)]: the [repr] of each item, separated by a comma and a space,
    in square brackets.  [repr(str)] follows CPython's [unicode_repr]: single
    quotes unless the text has a single quote and no double quote; the
    quote in use and the backslash are escaped with a backslash; tab, line
    feed and carriage return become [\t], [\n], [\r]; the other control
    characters of ASCII become [\xhh].  Bytes from 128 up belong to the
    encoding of a non-ASCII character and are kept, as CPython keeps every
    printable character. *)

Definition hex_digit (n : N) : ascii :=
  ascii_of_N (if (n <? 10)%N then 48 + n else 87 + n).

Definition repr_quote (s : string) : ascii :=
  if has_char "'"%char s && negb (has_char dquote s) then dquote else "'"%char.

Definition repr_char (quote c : ascii) : string :=
  let n := N_of_ascii c in
  if Ascii.eqb c quote || Ascii.eqb c "\"%char then String "\"%char (String c EmptyString)
  else if (n =? 9)%N then "\t"
  else if (n =? 10)%N then "\n"
  else if (n =? 13)%N then "\r"
  else if (n <? 32)%N || (n =? 127)%N
       then "\x" ++ String (hex_digit (n / 16)) (String (hex_digit (n mod 16)) EmptyString)
  else String c EmptyString.

Fixpoint repr_body (quote : ascii) (s : string) : string :=
  match s with
  | EmptyString => EmptyString
  | String c rest => repr_char quote c ++ repr_body quote rest
  end.

Definition repr_str (s : string) : string :=
  let quote := repr_quote s in
  String quote (repr_body quote s ++ String quote EmptyString).

Definition repr_list (items : list string) : string :=
  "[" ++ join ", " (map repr_str items) ++ "]".

End PyStr.
Import PyStr.

(* ================================================================== *)
(** ** Messages *)

Inductive Role : Type := user | assistant.

Record PromptMessage : Type := mkPromptMessage {
  role : Role;
  content : string
}.

(** The role a message carries when [Message] is called without one. *)
Definition default_role : Role := user.

(** [Message(content, role=None)]. *)
Definition Message (content : string) (role : option Role) : PromptMessage :=
  {| role := match role with Some r => r | None => default_role end;
     content := content |}.

(* ================================================================== *)
(** ** The heap of list objects and the monad of template bodies *)

Inductive object : Type :=
| StrList (items : list string)
| MsgList (items : list PromptMessage).

(** A reference is the position of the object in the heap. *)
Abbreviation ref := nat (only parsing).
Definition heap : Type := list object.

(** A computation reads and writes the heap; [None] is a raised exception. *)
Definition Py (A : Type) : Type := heap -> option (A * heap).

Definition ret {A} (a : A) : Py A := fun h => Some (a, h).

Definition bind {A B} (m : Py A) (k : A -> Py B) : Py B :=
  fun h => match m h with
           | Some (a, h') => k a h'
           | None => None
           end.

Notation "x <- m ;; k" := (bind m (fun x => k))
  (at level 61, m at next level, right associativity).

(** [heap_set h r o]: the heap [h] with the object at [r] replaced by [o]. *)
Fixpoint heap_set (h : heap) (r : ref) (o : object) : heap :=
  match h, r with
  | [], _ => []
  | _ :: rest, O => o :: rest
  | x :: rest, S r' => x :: heap_set rest r' o
  end.

(** A list display [[a, b, ...]] builds a new list object. *)
Definition new_list (o : object) : Py ref :=
  fun h => Some (List.length h, (h ++ [o])%list).

(** Reading a list of [str] through its reference; any other object there
    is a type error. *)
Definition read_strs (r : ref) : Py (list string) :=
  fun h => match nth_error h r with
           | Some (StrList items) => Some (items, h)
           | _ => None
           end.

Definition read_msgs (r : ref) : Py (list PromptMessage) :=
  fun h => match nth_error h r with
           | Some (MsgList items) => Some (items, h)
           | _ => None
           end.

(** [messages.append(m)]: the list object is changed in place. *)
Definition append_msg (r : ref) (m : PromptMessage) : Py unit :=
  fun h => match nth_error h r with
           | Some (MsgList items) => Some (tt, heap_set h r (MsgList (items ++ [m])%list))
           | _ => None
           end.

(** The truth value of an [Optional[List[str]]]: [None] and the empty list
    are false. *)
Definition truthy_strs (x : option ref) : Py bool :=
  match x with
  | None => ret false
  | Some r => items <- read_strs r ;;
              ret (match items with [] => false | _ :: _ => true end)
  end.

(** The truth value of an [Optional[str]]: [None] and the empty string are
    false. *)
Definition truthy_str (x : option string) : bool :=
  match x with
  | None => false
  | Some EmptyString => false
  | Some (String _ _) => true
  end.

(** [', '.join(None)] and iterating over [None] raise a [TypeError]. *)
Definition raise {A} : Py A := fun _ => None.

Definition strs_of (x : option ref) : Py (list string) :=
  match x with
  | Some r => read_strs r
  | None => raise
  end.

(** [f"{x}"] for an [Optional[str]]. *)
Definition str_opt (x : option string) : string :=
  match x with
  | Some s => s
  | None => "None"
  end.

(* ================================================================== *)
(** ** The templates of [register_prompts] *)

(** *** [get_started] *)

Definition get_started : Py ref :=
  new_list (MsgList [
    Message (
      "Welcome to Reddit MCP! I'll help you conduct thorough Reddit research. " ++
      "Here's the recommended workflow for comprehensive analysis:"
      ) (Some assistant);
    Message (
      "First, let me discover relevant communities for your topic using " ++
      "discover_reddit_resources with discovery_depth='comprehensive'. " ++
      "This will find 8-15 relevant subreddits using multiple search strategies."
      ) None;
    Message (
      "Next, I'll use fetch_multiple to efficiently get posts from the top communities. " ++
      "This is 70% more efficient than individual calls and ensures diverse perspectives."
      ) None;
    Message (
      "Then, I'll search broadly using search_all for additional coverage beyond " ++
      "the discovered communities."
      ) None;
    Message (
      "CRITICAL: I'll fetch detailed comments for AT LEAST 10 posts using fetch_comments " ++
      "with comment_limit of 50-100 for comprehensive discussion analysis."
      ) None;
    Message (
      "Finally, I'll compile findings with proper Reddit URL citations for every " ++
      "post and comment referenced. What topic would you like to research?"
      ) None
  ]).

(** *** [research_topic] *)

Module research_topic_defaults.
Definition depth : string := "comprehensive".
Definition time_range : string := "year".
Definition include_nsfw : bool := false.
End research_topic_defaults.

Definition research_topic (topic depth time_range : string) (include_nsfw : bool)
  : string :=
  let nsfw_note :=
    if include_nsfw then "including NSFW communities" else "excluding NSFW content" in
    lines [
      "I'll conduct a " ++ depth ++ " Reddit research analysis on '" ++ topic ++ "' covering the past " ++ time_range ++ ", " ++ nsfw_note ++ ".";
      "";
      "## Research Plan:";
      "";
      "### Phase 1: Community Discovery";
      "- Use discover_reddit_resources('" ++ topic ++ "', discovery_depth='" ++ depth ++ "') to find 8-15 relevant subreddits";
      "- Document confidence scores and community sizes for prioritization";
      "";
      "### Phase 2: Multi-Community Data Collection  ";
      "- Fetch posts from top 8 communities using fetch_multiple_subreddits_tool";
      "- Parameters: listing_type='hot' for current discussions, limit_per_subreddit=8";
      "- Expected coverage: ~64 posts from diverse perspectives";
      "";
      "### Phase 3: Broad Search Expansion";
      "- Execute search_all_reddit('" ++ topic ++ "', time_filter='" ++ time_range ++ "', limit=25)";
      "- Capture posts that might not appear in discovered communities";
      "";
      "### Phase 4: Deep Comment Analysis (CRITICAL)";
      "- Fetch full comment trees for top 15 posts using fetch_comments";
      "- Use comment_limit=75 for comprehensive discussion coverage";
      "- Focus on posts with high engagement (50+ comments)";
      "";
      "### Phase 5: Synthesis & Citation";
      "- Compile findings with themes, sentiment patterns, and key insights";
      "- Include Reddit URLs for EVERY cited post and comment";
      "- Structure: Executive summary → Community analysis → Key themes → Notable discussions";
      "";
      "This approach ensures ~100+ posts and ~1000+ comments analyzed across diverse communities.";
      "Shall I proceed with this research plan?"
    ]
.

(** *** [analyze_sentiment] *)

Module analyze_sentiment_defaults.
Definition is_subreddit : bool := false.
Definition aspects : option ref := None.
End analyze_sentiment_defaults.

Definition analyze_sentiment
  (subreddit_or_topic : string) (is_subreddit : bool) (aspects : option ref)
  : Py string :=
  let target :=
    if is_subreddit then "r/" ++ subreddit_or_topic
    else "topic '" ++ subreddit_or_topic ++ "'" in
  given <- truthy_strs aspects ;;
  aspects_text <-
    (if given
     then items <- strs_of aspects ;;
          ret (" focusing on aspects: " ++ join ", " items)
     else ret EmptyString) ;;
  ret (
    lines [
      "Please analyze the sentiment and emotional tone in Reddit discussions about " ++ target ++ aspects_text ++ ".";
      "";
      "## Analysis Framework:";
      "";
      "1. **Overall Sentiment Distribution**";
      "   - Positive, negative, neutral percentages";
      "   - Emotional intensity levels";
      "   - Sentiment trends over time";
      "";
      "2. **Key Themes by Sentiment**";
      "   - What drives positive sentiment?";
      "   - Common complaints and frustrations";
      "   - Neutral/informational discussions";
      "";
      "3. **Community-Specific Patterns**";
      "   - How sentiment varies across different subreddits";
      "   - Differences between casual vs expert communities";
      "   - Impact of community rules on discussion tone";
      "";
      "4. **Notable Emotional Indicators**";
      "   - Frequently used emotional language";
      "   - Sarcasm and humor patterns";
      "   - Support vs criticism ratios";
      "";
      "5. **Engagement Correlation**";
      "   - How sentiment affects upvotes/downvotes";
      "   - Relationship between sentiment and comment depth";
      "   - Controversial (mixed sentiment) topics";
      "";
      "Please fetch at least 50 posts and analyze top comments (fetch_comments with limit=50) for accurate sentiment assessment. Include specific examples with Reddit URLs."
    ]
  ).

(** *** [compare_communities] *)

Module compare_communities_defaults.
Definition comparison_aspects : option ref := None.
End compare_communities_defaults.

Definition compare_communities
  (subreddits : ref) (comparison_aspects : option ref) : Py string :=
  given <- truthy_strs comparison_aspects ;;
  comparison_aspects <-
    (if negb given
     then fresh <- new_list (StrList [
                     "content focus"; "community culture"; "moderation style";
                     "expertise level"; "engagement patterns"
                   ]) ;;
          ret (Some fresh)
     else ret comparison_aspects) ;;
  names <- read_strs subreddits ;;
  let subreddit_list := join ", " (map (fun s => "r/" ++ s) names) in
  aspects <- strs_of comparison_aspects ;;
  let aspects_list := join nl (map (fun aspect => "   - " ++ aspect) aspects) in
  ret (
    lines [
      "Please conduct a comprehensive comparison analysis of these Reddit communities: " ++ subreddit_list;
      "";
      "## Comparison Framework:";
      "";
      "### Data Collection Phase:";
      "1. Use fetch_multiple_subreddits_tool(subreddit_names=" ++ repr_list names ++ ", limit_per_subreddit=15)";
      "2. Fetch subreddit metadata using reddit://subreddit/{name}/about for each";
      "3. Analyze top 5 posts from each with fetch_comments(comment_limit=30)";
      "";
      "### Comparison Dimensions:";
      aspects_list;
      "";
      "### Analysis Structure:";
      "";
      "1. **Community Profiles**";
      "   - Size and activity metrics";
      "   - Stated purpose and rules";
      "   - Typical post types";
      "";
      "2. **Content Analysis**";
      "   - Common topics and themes";
      "   - Content quality and depth";
      "   - Original content vs shares/links";
      "";
      "3. **Engagement Patterns**";
      "   - Average upvotes/comments";
      "   - Response time and activity peaks";
      "   - User retention indicators";
      "";
      "4. **Cultural Differences**";
      "   - Tone and communication style";
      "   - Newcomer friendliness";
      "   - Inside jokes and community norms";
      "";
      "5. **Unique Value Propositions**";
      "   - What each community offers uniquely";
      "   - Overlaps and differentiators";
      "   - Recommended use cases for each";
      "";
      "Provide specific examples with Reddit URLs demonstrating each community's characteristics."
    ]
  ).

(** *** [trending_analysis] *)

Module trending_analysis_defaults.
Definition category : option string := None.
Definition time_window : string := "day".
Definition min_engagement : Z := 100.
End trending_analysis_defaults.

Definition trending_analysis
  (category : option string) (time_window : string) (min_engagement : Z)
  : string :=
  let category_filter :=
    if truthy_str category then " in " ++ str_opt category
    else " across all topics" in
    lines [
      "Please identify and analyze trending discussions on Reddit" ++ category_filter ++ " from the past " ++ time_window ++ ".";
      "";
      "## Trending Analysis Protocol:";
      "";
      "### Phase 1: Trend Discovery";
      "1. Fetch hot posts from popular subreddits using fetch_multiple_subreddits_tool";
      "2. Search for rapidly rising topics: search_all_reddit(sort='hot', time_filter='" ++ time_window ++ "')";
      "3. Focus on posts with " ++ str_int min_engagement ++ "+ upvotes/comments";
      "";
      "### Phase 2: Trend Categorization";
      "- Breaking news and current events";
      "- Viral content and memes";
      "- Emerging discussions and debates";
      "- Technology and product launches";
      "- Community-specific trends";
      "";
      "### Phase 3: Momentum Analysis";
      "For each trending topic:";
      "- Growth rate (upvotes/hour)";
      "- Cross-subreddit spread";
      "- Comment velocity and engagement depth";
      "- Sentiment trajectory";
      "";
      "### Phase 4: Deep Dive (Top 5 Trends)";
      "Use fetch_comments(comment_limit=100) on the top post for each trend to understand:";
      "- Why it's trending";
      "- Community reaction patterns";
      "- Key discussion points";
      "- Potential longevity";
      "";
      "### Phase 5: Predictive Insights";
      "- Topics likely to continue trending";
      "- Emerging topics to watch";
      "- Sentiment shifts to monitor";
      "";
      "Include Reddit URLs for all referenced posts and highlight the single most impactful trend."
    ]
.

(** *** [deep_dive] *)

Module deep_dive_defaults.
Definition historical_range : string := "year".
Definition min_posts_to_analyze : Z := 100.
Definition min_comments_to_analyze : Z := 1000.
End deep_dive_defaults.

Definition deep_dive
  (topic historical_range : string)
  (min_posts_to_analyze min_comments_to_analyze : Z) : string :=
    lines [
      "I'll conduct an exhaustive deep-dive analysis on '" ++ topic ++ "' covering " ++ historical_range ++ " of Reddit history.";
      "";
      "## Deep Dive Research Protocol:";
      "";
      "### Phase 1: Comprehensive Community Mapping";
      "1. discover_reddit_resources('" ++ topic ++ "', discovery_depth='comprehensive') - find ALL relevant communities";
      "2. Batch discover with related terms to ensure no community is missed";
      "3. Document all communities, even tangentially related ones";
      "";
      "### Phase 2: Systematic Data Collection";
      "Target: Minimum " ++ str_int min_posts_to_analyze ++ " posts and " ++ str_int min_comments_to_analyze ++ " comments";
      "";
      "**Wave 1 - Primary Communities (Top 5)**";
      "- fetch_multiple_subreddits_tool with limit_per_subreddit=20";
      "- Cover hot, top, and new to get temporal diversity";
      "";
      "**Wave 2 - Secondary Communities (Next 10)**  ";
      "- fetch_multiple_subreddits_tool with limit_per_subreddit=10";
      "- Focus on specialized/niche perspectives";
      "";
      "**Wave 3 - Historical Mining**";
      "- search_all_reddit('" ++ topic ++ "', time_filter='year', limit=50)";
      "- search_all_reddit('" ++ topic ++ "', time_filter='month', limit=25) for recent";
      "- search_all_reddit('" ++ topic ++ "', sort='top', limit=25) for influential posts";
      "";
      "### Phase 3: Comment Deep Dive";
      "- Fetch comments for ALL posts with 100+ upvotes (fetch_comments, limit=100)";
      "- Fetch comments for posts with 50+ comments regardless of upvotes";
      "- Total target: " ++ str_int min_comments_to_analyze ++ "+ comments across all discussions";
      "";
      "### Phase 4: Multi-Dimensional Analysis";
      "1. **Temporal Evolution**: How has discussion changed over time?";
      "2. **Community Perspectives**: How do different communities view this topic?";
      "3. **Expertise Levels**: Beginner vs expert discussions";
      "4. **Controversy Mapping**: Divisive aspects and debate points";
      "5. **Solution Patterns**: Common advice and recommendations";
      "6. **Myth Busting**: Misconceptions vs factual consensus";
      "";
      "### Phase 5: Comprehensive Synthesis";
      "- Executive summary with key findings";
      "- Detailed thematic analysis with examples";
      "- Community-by-community breakdown";
      "- Timeline of major developments";
      "- FAQ compiled from common questions";
      "- Expert insights from highly upvoted technical comments";
      "- EVERY claim backed by Reddit URL citations";
      "";
      "This exhaustive approach ensures no significant perspective is missed. Proceed?"
    ]
.

(** *** [citation_guide] *)

Module citation_guide_defaults.
Definition include_examples : bool := true.
Definition citation_style : string := "inline".
End citation_guide_defaults.

Definition citation_guide (include_examples : bool) (citation_style : string)
  : Py ref :=
  let dq := String dquote EmptyString in
  messages <- new_list (MsgList [
    Message (
      "Here's how to properly cite Reddit content using " ++ citation_style ++ " citations:"
      ) (Some assistant);
    Message (
      "## Citation Requirements:" ++ nl ++ nl ++
      "1. **Every factual claim** must include the source Reddit URL" ++ nl ++
      "2. **User attribution** format: u/username or [u/username]" ++ nl ++
      "3. **Subreddit references** format: r/subreddit" ++ nl ++
      "4. **Upvote counts** provide credibility context" ++ nl ++
      "5. **Timestamps** for temporal context" ++ nl ++
      "6. **Comment permalinks** for specific discussions"
      ) None
  ]) ;;
  _ <- (if include_examples
        then append_msg messages (Message (
      "## Citation Examples:" ++ nl ++ nl ++
      "**For posts:**" ++ nl ++
      "> According to a highly upvoted analysis [↑2,451] in r/science, " ++
      "the study shows... ([u/ResearcherName](https://reddit.com/r/science/comments/abc123/))" ++ nl ++ nl ++
      "**For comments:**" ++ nl ++
      "> As [u/ExpertUser] explains in their detailed response [↑342]: " ++
      dq ++ "Quote from comment..." ++ dq ++ " ([permalink](https://reddit.com/r/tech/comments/xyz789/comment/def456/))" ++ nl ++ nl ++
      "**For community consensus:**" ++ nl ++
      "> The r/python community generally agrees (based on 15+ posts analyzed) " ++
      "that... [r/python search results](https://reddit.com/r/python/search?q=topic)" ++ nl ++ nl ++
      "**For controversial topics:**" ++ nl ++
      "> This remains debated, with r/politics [↑1,234] arguing X " ++
      "([link](https://reddit.com/...)) while r/economics [↑892] contends Y ([link](https://reddit.com/...))"
          ) None)
        else ret tt) ;;
  _ <- append_msg messages (Message (
      "Remember: Credibility comes from transparent sourcing. " ++
      "Always provide enough context for readers to evaluate the source's reliability. " ++
      "Include URLs for EVERY Reddit reference made."
    ) None) ;;
  ret messages.

(* ================================================================== *)
(** ** Calls, as the host of the templates makes them *)

(** What a template hands back: one text, or a sequence of messages. *)
Inductive Rendered : Type :=
| PlainText (text : string)
| MessageSequence (messages : list PromptMessage).

(** A call of one of the seven templates with its arguments.  [L] is how a
    list argument is given: by reference ([Call ref], the call as it is
    made) or by its items ([Call (list string)], the values of the
    arguments). *)
Inductive Call (L : Type) : Type :=
| GetStarted
| ResearchTopic (topic depth time_range : string) (include_nsfw : bool)
| AnalyzeSentiment (subreddit_or_topic : string) (is_subreddit : bool)
    (aspects : option L)
| CompareCommunities (subreddits : L) (comparison_aspects : option L)
| TrendingAnalysis (category : option string) (time_window : string)
    (min_engagement : Z)
| DeepDive (topic historical_range : string)
    (min_posts_to_analyze min_comments_to_analyze : Z)
| CitationGuide (include_examples : bool) (citation_style : string).

Arguments GetStarted {L}.
Arguments ResearchTopic {L}.
Arguments AnalyzeSentiment {L}.
Arguments CompareCommunities {L}.
Arguments TrendingAnalysis {L}.
Arguments DeepDive {L}.
Arguments CitationGuide {L}.

(** The host takes the text as it is, and reads the messages off the list
    that the template returns. *)
Definition text_of (m : Py string) : Py Rendered :=
  text <- m ;; ret (PlainText text).

Definition messages_of (m : Py ref) : Py Rendered :=
  r <- m ;; items <- read_msgs r ;; ret (MessageSequence items).

Definition render (c : Call ref) : Py Rendered :=
  match c with
  | GetStarted => messages_of get_started
  | ResearchTopic topic depth time_range include_nsfw =>
      text_of (ret (research_topic topic depth time_range include_nsfw))
  | AnalyzeSentiment subreddit_or_topic is_subreddit aspects =>
      text_of (analyze_sentiment subreddit_or_topic is_subreddit aspects)
  | CompareCommunities subreddits comparison_aspects =>
      text_of (compare_communities subreddits comparison_aspects)
  | TrendingAnalysis category time_window min_engagement =>
      text_of (ret (trending_analysis category time_window min_engagement))
  | DeepDive topic historical_range min_posts min_comments =>
      text_of (ret (deep_dive topic historical_range min_posts min_comments))
  | CitationGuide include_examples citation_style =>
      messages_of (citation_guide include_examples citation_style)
  end.

(** The items of the list of [str] at [r], if there is one. *)
Definition deref (h : heap) (r : ref) : option (list string) :=
  match nth_error h r with
  | Some (StrList items) => Some items
  | _ => None
  end.

Definition deref_opt (h : heap) (x : option ref) : option (option (list string)) :=
  match x with
  | None => Some None
  | Some r => option_map Some (deref h r)
  end.

(** The values of the arguments of a call made in heap [h]: every
    reference replaced by the items of the list it points to. *)
Definition argument_values (h : heap) (c : Call ref) : option (Call (list string)) :=
  match c with
  | GetStarted => Some GetStarted
  | ResearchTopic topic depth time_range include_nsfw =>
      Some (ResearchTopic topic depth time_range include_nsfw)
  | AnalyzeSentiment subreddit_or_topic is_subreddit aspects =>
      match deref_opt h aspects with
      | Some a => Some (AnalyzeSentiment subreddit_or_topic is_subreddit a)
      | None => None
      end
  | CompareCommunities subreddits comparison_aspects =>
      match deref h subreddits, deref_opt h comparison_aspects with
      | Some s, Some a => Some (CompareCommunities s a)
      | _, _ => None
      end
  | TrendingAnalysis category time_window min_engagement =>
      Some (TrendingAnalysis category time_window min_engagement)
  | DeepDive topic historical_range min_posts min_comments =>
      Some (DeepDive topic historical_range min_posts min_comments)
  | CitationGuide include_examples citation_style =>
      Some (CitationGuide include_examples citation_style)
  end.

(* ================================================================== *)
(** ** Reading the outcome of a template *)

(** The text a string template returns from heap [h], if it returns. *)
Definition returned_text (m : Py string) (h : heap) : option string :=
  match m h with
  | Some (text, _) => Some text
  | None => None
  end.

(** The messages of the list a message template returns from heap [h]. *)
Definition returned_messages (m : Py ref) (h : heap)
  : option (list PromptMessage) :=
  match m h with
  | Some (r, h') =>
      match nth_error h' r with
      | Some (MsgList items) => Some items
      | _ => None
      end
  | None => None
  end.

(** The heap a computation leaves behind. *)
Definition final_heap {A} (m : Py A) (h : heap) : option heap :=
  match m h with
  | Some (_, h') => Some h'
  | None => None
  end.


(* ================================================================== *)
(** ** Names for the parts of the rendered texts *)

(** The opening words of the request, up to the target. *)
Definition sentiment_opening : string :=
  "Please analyze the sentiment and emotional tone in Reddit discussions about ".

(** The five aspects that the body puts in place of a missing or empty
    [comparison_aspects]. *)
Definition default_comparison_aspects : list string :=
  ["content focus"; "community culture"; "moderation style";
   "expertise level"; "engagement patterns"].

(** One bullet line per aspect, in the order of the list. *)
Definition bullet_lines (aspects : list string) : string :=
  join nl (map (fun aspect => "   - " ++ aspect) aspects).

(** The compared set: the names with [r/] in front, separated by commas. *)
Definition compared_set (names : list string) : string :=
  join ", " (map (fun s => "r/" ++ s) names).

Definition comparison_opening : string :=
  "Please conduct a comprehensive comparison analysis of these Reddit communities: ".

Definition dimensions_header : string :=
  "### Comparison Dimensions:" ++ nl.

Definition structure_header : string :=
  nl ++ nl ++ "### Analysis Structure:" ++ nl.

(** The aspects whose bullets are rendered, and the list the body
    allocates for them, for each way of passing [comparison_aspects]. *)
Definition rendered_aspects (given : option (list string)) : list string :=
  match given with
  | None | Some [] => default_comparison_aspects
  | Some (a :: rest) => a :: rest
  end.

Definition allocated (given : option (list string)) : heap :=
  match given with
  | None | Some [] => [StrList default_comparison_aspects]
  | Some (_ :: _) => []
  end.

(** [given_at h x v]: in heap [h] the optional list argument [x] has the
    value [v]. *)
Definition given_at (h : heap) (x : option ref) (v : option (list string)) : Prop :=
  match x, v with
  | None, None => True
  | Some r, Some items => nth_error h r = Some (StrList items)
  | _, _ => False
  end.

(* ================================================================== *)
(** ** Facts about strings *)

Section StringFacts.

Lemma append_assoc (a b c : string) : (a ++ b) ++ c = a ++ (b ++ c).
Proof. induction a as [|x a IH]; simpl; [reflexivity | now rewrite IH]. Qed.

Lemma prefix_app (n s : string) : String.prefix n (n ++ s) = true.
Proof.
  induction n as [|c n IH]; simpl.
  - now destruct s.
  - destruct (ascii_dec c c) as [_|ne]; [exact IH | now elim ne].
Qed.

Lemma prefix_split (n s : string) :
  String.prefix n s = true -> exists rest, s = n ++ rest.
Proof.
  revert s; induction n as [|c n IH]; intros s H.
  - now exists s.
  - destruct s as [|d s]; simpl in H; [discriminate|].
    destruct (ascii_dec c d) as [->|_]; [|discriminate].
    destruct (IH _ H) as [rest ->]. now exists rest.
Qed.

Lemma contains_nil (n : string) :
  contains n EmptyString = String.prefix n EmptyString.
Proof. simpl. apply orb_false_r. Qed.

Lemma contains_cons (n : string) (c : ascii) (s : string) :
  contains n (String c s) = String.prefix n (String c s) || contains n s.
Proof. reflexivity. Qed.

(** [contains] is the boolean form of "occurs as a substring". *)
Lemma contains_spec (n s : string) :
  contains n s = true <-> exists before after, s = before ++ n ++ after.
Proof.
  split.
  - induction s as [|c s IH]; intros H.
    + rewrite contains_nil in H. destruct (prefix_split _ _ H) as [rest E].
      now exists EmptyString, rest.
    + rewrite contains_cons in H. apply orb_true_iff in H as [H|H].
      * destruct (prefix_split _ _ H) as [rest E]. now exists EmptyString, rest.
      * destruct (IH H) as (b & a & ->). now exists (String c b), a.
  - intros (b & a & ->). induction b as [|c b IH].
    + change (EmptyString ++ n ++ a) with (n ++ a).
      destruct (n ++ a) eqn:E.
      * rewrite contains_nil, <- E. apply prefix_app.
      * rewrite contains_cons, <- E, prefix_app. reflexivity.
    + change (String c b ++ n ++ a) with (String c (b ++ n ++ a)).
      rewrite contains_cons, IH. apply orb_true_r.
Qed.

Lemma contains_skip (n a s : string) :
  contains n s = true -> contains n (a ++ s) = true.
Proof.
  intros H. induction a as [|c a IH]; [exact H|].
  change (String c a ++ s) with (String c (a ++ s)).
  rewrite contains_cons, IH. apply orb_true_r.
Qed.

(** A prefix test that meets a character foreign to the needle fails
    there, so it cannot tell what follows that character. *)
Lemma prefix_foreign (n a b : string) (c : ascii) :
  has_char c n = false ->
  String.prefix n (a ++ String c b) = String.prefix n a.
Proof.
  revert a; induction n as [|x n IH]; intros a Hc.
  - now destruct a.
  - simpl in Hc. apply orb_false_iff in Hc as [Hx Hn].
    destruct a as [|y a]; simpl.
    + destruct (ascii_dec x c) as [->|_]; [|reflexivity].
      now rewrite Ascii.eqb_refl in Hx.
    + destruct (ascii_dec x y); [now apply IH | reflexivity].
Qed.

(** A character foreign to the needle cuts the search in two. *)
Lemma contains_foreign (n a b : string) (c : ascii) :
  has_char c n = false ->
  contains n (a ++ String c b) = contains n a || contains n b.
Proof.
  intros Hc. induction a as [|y a IH].
  - change (EmptyString ++ String c b) with (String c b).
    rewrite contains_cons, contains_nil.
    now rewrite <- (prefix_foreign n EmptyString b c Hc).
  - change (String y a ++ String c b) with (String y (a ++ String c b)).
    rewrite !contains_cons, IH.
    rewrite <- (prefix_foreign n (String y a) b c Hc).
    now rewrite orb_assoc.
Qed.

Lemma contains_trans (a b s : string) :
  contains a b = true -> contains b s = true -> contains a s = true.
Proof.
  rewrite !contains_spec. intros (x & y & ->) (u & v & ->).
  exists (u ++ x), (y ++ v). now rewrite !append_assoc.
Qed.

Lemma contains_false_trans (a b s : string) :
  contains a b = true -> contains a s = false -> contains b s = false.
Proof.
  intros Hab Has. destruct (contains b s) eqn:E; [|reflexivity].
  now rewrite (contains_trans _ _ _ Hab E) in Has.
Qed.

Lemma append_cancel_l (a b c : string) : a ++ b = a ++ c -> b = c.
Proof.
  induction a as [|x a IH]; simpl; intros H; [exact H|].
  injection H as H. now apply IH.
Qed.

End StringFacts.

(* ================================================================== *)
(** ** Facts about the heap *)

Section HeapFacts.

Lemma nth_error_fresh (h : heap) (o : object) :
  nth_error (h ++ [o])%list (List.length h) = Some o.
Proof. induction h as [|x h IH]; simpl; [reflexivity | exact IH]. Qed.

Lemma nth_error_kept (h g : heap) (r : ref) (o : object) :
  nth_error h r = Some o -> nth_error (h ++ g)%list r = Some o.
Proof.
  revert r; induction h as [|x h IH]; intros [|r] H; simpl in *;
    try discriminate; [exact H | now apply IH].
Qed.

Lemma heap_set_fresh (h : heap) (o o' : object) :
  heap_set (h ++ [o])%list (List.length h) o' = (h ++ [o'])%list.
Proof. induction h as [|x h IH]; simpl; [reflexivity | now rewrite IH]. Qed.

(** Appending to the list that was allocated last. *)
Lemma append_msg_fresh (h : heap) (items : list PromptMessage) (m : PromptMessage) :
  append_msg (List.length h) m (h ++ [MsgList items])%list
  = Some (tt, (h ++ [MsgList (items ++ [m])])%list).
Proof.
  unfold append_msg. now rewrite nth_error_fresh, heap_set_fresh.
Qed.

Lemma read_strs_at (h : heap) (r : ref) (items : list string) :
  nth_error h r = Some (StrList items) -> read_strs r h = Some (items, h).
Proof. unfold read_strs. now intros ->. Qed.

End HeapFacts.

(** Unfolds the template [f] and the plumbing of the monad, and nothing of
    the strings. *)
Ltac py_unfold f :=
  cbv beta iota zeta
      delta [f bind ret raise truthy_strs strs_of new_list lines join].

(** Splits a text that mixes literal characters and computed parts into
    literal pieces and computed parts joined by [++]. *)
Ltac lit_head t :=
  lazymatch t with
  | String ?c ?r => let p := lit_head r in constr:(String c p)
  | _ => constr:(EmptyString)
  end.

Ltac lit_tail t :=
  lazymatch t with
  | String _ ?r => lit_tail r
  | _ => t
  end.

Ltac pieces t :=
  lazymatch t with
  | EmptyString => t
  | String _ _ =>
      let p := lit_head t in
      let r := lit_tail t in
      lazymatch r with
      | EmptyString => t
      | _ => let r' := pieces r in constr:(p ++ r')
      end
  | ?a ++ ?b => let b' := pieces b in constr:(a ++ b')
  | _ => t
  end.

(** Brings the text on the left of the goal into that form; the right
    side, which may still have parts to be found, is set aside meanwhile. *)
Ltac split_text :=
  lazymatch goal with
  | |- _ = ?r =>
      let R := fresh "R" in
      set (R := r);
      cbn [String.concat]; rewrite ?append_assoc; cbn [append nl];
      lazymatch goal with
      | |- Some (?t, _) = _ => let t' := pieces t in change t with t'
      end;
      subst R
  end.

(** Finds what stands before a given suffix of a literal text. *)
Ltac split_off_suffix :=
  lazymatch goal with
  | |- exists m, ?b = m ++ ?suffix =>
      let m0 := eval vm_compute in
        (substring 0 (String.length b - String.length suffix) b) in
      exists m0; vm_compute; reflexivity
  end.

(* ================================================================== *)
(** ** [get_started] *)

(** C4.  [get_started()] returns a list of exactly six messages whose
    content is fixed: the same six messages from every heap.  The first
    has the role [assistant], the other five the default role.  The call
    leaves the heap as it was, with the returned list added. *)
Theorem get_started_six_messages :
  exists msgs : list PromptMessage,
    List.length msgs = 6 /\
    map role msgs = assistant :: repeat default_role 5 /\
    forall h : heap,
      returned_messages get_started h = Some msgs /\
      final_heap get_started h = Some (h ++ [MsgList msgs])%list.
Proof.
  eexists. split; [|split]; cycle 2.
  - intros h. unfold returned_messages, final_heap, get_started, new_list.
    rewrite nth_error_fresh. split; reflexivity.
  - reflexivity.
  - reflexivity.
Qed.

(* ================================================================== *)
(** ** [research_topic] *)

(** C6.  [research_topic("AI safety")] with the default arguments has the
    substrings ['AI safety'], [past year] and [excluding NSFW content];
    with [include_nsfw=True] it has [including NSFW communities] and does
    not have [excluding NSFW content]. *)
Theorem research_topic_ai_safety :
  let plain :=
    research_topic "AI safety" research_topic_defaults.depth
      research_topic_defaults.time_range research_topic_defaults.include_nsfw in
  let nsfw :=
    research_topic "AI safety" research_topic_defaults.depth
      research_topic_defaults.time_range true in
  contains "'AI safety'" plain = true /\
  contains "past year" plain = true /\
  contains "excluding NSFW content" plain = true /\
  contains "including NSFW communities" nsfw = true /\
  contains "excluding NSFW content" nsfw = false.
Proof. vm_compute. repeat split. Qed.

(* ================================================================== *)
(** ** [deep_dive] *)

(** C7.  In [deep_dive("climate", min_posts_to_analyze=50,
    min_comments_to_analyze=500)] the target line under the Phase 2 header
    reads [Target: Minimum 50 posts and 500 comments], and the total-target
    line of Phase 3 reads [Total target: 500+ comments]. *)
Theorem deep_dive_targets :
  let text := deep_dive "climate" deep_dive_defaults.historical_range 50 500 in
  contains (lines [
    "### Phase 2: Systematic Data Collection";
    "Target: Minimum 50 posts and 500 comments";
    ""
  ]) text = true /\
  contains (lines [
    "### Phase 3: Comment Deep Dive";
    "- Fetch comments for ALL posts with 100+ upvotes (fetch_comments, limit=100)";
    "- Fetch comments for posts with 50+ comments regardless of upvotes";
    "- Total target: 500+ comments across all discussions";
    ""
  ]) text = true.
Proof. vm_compute. repeat split. Qed.

(* ================================================================== *)
(** ** [citation_guide] *)

(** What a call of [citation_guide] does to the heap: it adds one list,
    which holds the introduction naming the citation style, the
    requirements, the examples when they are asked for, and the closing
    reminder. *)
Lemma citation_guide_run :
  exists (intro : string -> PromptMessage)
         (requirements examples closing : PromptMessage),
    (forall style, role (intro style) = assistant) /\
    contains "Citation Examples" (content examples) = true /\
    String.prefix "Remember: Credibility comes from transparent sourcing"
      (content closing) = true /\
    forall (include_examples : bool) (style : string) (h : heap),
      citation_guide include_examples style h
      = Some (List.length h,
              (h ++ [MsgList ([intro style; requirements]
                              ++ (if include_examples then [examples] else [])
                              ++ [closing])])%list).
Proof.
  eexists (fun style => _), _, _, _.
  split; [|split; [|split]]; cycle 3.
  - intros b style h. unfold citation_guide, bind, new_list, ret.
    destruct b; rewrite !append_msg_fresh; reflexivity.
  - intros style. reflexivity.
  - vm_compute. reflexivity.
  - vm_compute. reflexivity.
Qed.

(** A template that returns the list it allocated last returns the
    messages of that list. *)
Lemma returned_messages_fresh (m : Py ref) (h : heap) (items : list PromptMessage) :
  m h = Some (List.length h, (h ++ [MsgList items])%list) ->
  returned_messages m h = Some items.
Proof.
  intros E. unfold returned_messages. now rewrite E, nth_error_fresh.
Qed.

(** C5.  For every citation style and from every heap, [citation_guide]
    returns exactly three messages without the examples and exactly four
    with them.  The message that is added is the third one, it has the
    text "Citation Examples", and the other three are the messages of the
    guide without examples, in their order: the examples come as one
    message or not at all. *)
Theorem citation_guide_message_count (style : string) (h : heap) :
  exists intro requirements examples closing : PromptMessage,
    returned_messages (citation_guide false style) h
    = Some [intro; requirements; closing] /\
    returned_messages (citation_guide true style) h
    = Some [intro; requirements; examples; closing] /\
    option_map (@List.length _) (returned_messages (citation_guide false style) h)
    = Some 3 /\
    option_map (@List.length _) (returned_messages (citation_guide true style) h)
    = Some 4 /\
    contains "Citation Examples" (content examples) = true.
Proof.
  destruct citation_guide_run
    as (intro & requirements & examples & closing & _ & Hex & _ & H).
  exists (intro style), requirements, examples, closing.
  rewrite (returned_messages_fresh _ _ _ (H false style h)).
  rewrite (returned_messages_fresh _ _ _ (H true style h)).
  repeat split; assumption.
Qed.

(** Against C5 as it is worded: without the examples the guide has three
    messages, not two, and with them four, not three. *)
Lemma citation_guide_is_longer :
  option_map (@List.length _)
    (returned_messages (citation_guide false "inline") []) = Some 3 /\
  option_map (@List.length _)
    (returned_messages (citation_guide false "inline") []) <> Some 2 /\
  option_map (@List.length _)
    (returned_messages (citation_guide true "inline") []) = Some 4 /\
  option_map (@List.length _)
    (returned_messages (citation_guide true "inline") []) <> Some 3.
Proof. vm_compute. repeat split; discriminate. Qed.

(** C10.  The requirements, the examples and the closing reminder are
    fixed messages.  For every citation style and from every heap, the
    guide with examples is the guide without examples with the examples
    put in before the last message: both start with the same introduction
    and requirements and both end with the reminder that opens with
    "Remember: Credibility comes from transparent sourcing". *)
Theorem citation_guide_examples_inserted :
  exists requirements examples closing : PromptMessage,
    String.prefix "Remember: Credibility comes from transparent sourcing"
      (content closing) = true /\
    forall (style : string) (h : heap),
    exists (front : list PromptMessage) (intro : PromptMessage),
      front = [intro; requirements] /\
      role intro = assistant /\
      returned_messages (citation_guide false style) h
      = Some (front ++ [closing])%list /\
      returned_messages (citation_guide true style) h
      = Some (front ++ [examples] ++ [closing])%list.
Proof.
  destruct citation_guide_run
    as (intro & requirements & examples & closing & Hrole & _ & Hclose & H).
  exists requirements, examples, closing. split; [exact Hclose|].
  intros style h. exists [intro style; requirements], (intro style).
  rewrite (returned_messages_fresh _ _ _ (H false style h)).
  rewrite (returned_messages_fresh _ _ _ (H true style h)).
  repeat split. apply Hrole.
Qed.

(* ================================================================== *)
(** ** [analyze_sentiment] *)

(** The request is its opening, the target, the aspects fragment when a
    non-empty list of aspects is given, a full stop, and a fixed framework
    in which the word "aspects" does not occur.  The heap is left as it
    was. *)
Lemma analyze_sentiment_shape :
  exists framework : string,
    contains "aspects" framework = false /\
    forall (x : string) (b : bool),
      let target := if b then "r/" ++ x else "topic '" ++ x ++ "'" in
      (forall h : heap,
         analyze_sentiment x b None h
         = Some (sentiment_opening ++ target ++ "." ++ framework, h)) /\
      (forall (h : heap) (r : ref) (items : list string),
         nth_error h r = Some (StrList items) ->
         analyze_sentiment x b (Some r) h
         = Some (sentiment_opening ++ target
                 ++ match items with
                    | [] => EmptyString
                    | _ :: _ => " focusing on aspects: " ++ join ", " items
                    end
                 ++ "." ++ framework, h)).
Proof.
  eexists. split; cycle 1.
  - intros x b target. split.
    + intros h. py_unfold analyze_sentiment.
      cbn [String.concat]. rewrite !append_assoc. reflexivity.
    + intros h r items Hr. py_unfold analyze_sentiment.
      rewrite (read_strs_at _ _ _ Hr).
      destruct items as [|i items]; cbv beta iota.
      * cbn [String.concat]. rewrite !append_assoc. reflexivity.
      * rewrite (read_strs_at _ _ _ Hr).
        cbn [String.concat]. rewrite !append_assoc. reflexivity.
  - vm_compute. reflexivity.
Qed.

(** C8.  With [is_subreddit=True] the request names its target as
    [r/<name>], and with [is_subreddit=False] as [topic '<name>'], for
    every name: the target stands between the opening and the full stop,
    and the rest of the request is the same framework.  So the request for
    [python] has [r/python] in the first case and [topic 'python'] in the
    second. *)
Theorem analyze_sentiment_target :
  exists framework : string,
    (forall (name : string) (h : heap),
       analyze_sentiment name true None h
       = Some (sentiment_opening ++ "r/" ++ name ++ "." ++ framework, h) /\
       analyze_sentiment name false None h
       = Some (sentiment_opening ++ "topic '" ++ name ++ "'." ++ framework, h)) /\
    option_map (contains "r/python")
      (returned_text (analyze_sentiment "python" true None) []) = Some true /\
    option_map (contains "topic 'python'")
      (returned_text (analyze_sentiment "python" false None) []) = Some true.
Proof.
  destruct analyze_sentiment_shape as (framework & _ & H).
  exists framework. split; [|split; vm_compute; reflexivity].
  intros name h. split.
  - rewrite (proj1 (H name true) h). now rewrite !append_assoc.
  - rewrite (proj1 (H name false) h). now rewrite !append_assoc.
Qed.

(** C9.  An empty list of aspects is treated as a missing one: the two
    calls return the same text and leave the same heap.  The aspects
    fragment is not rendered, so the text has "focusing on aspects" exactly
    when the caller's own [subreddit_or_topic], which is put in as it is,
    has it. *)
Theorem analyze_sentiment_empty_aspects
  (x : string) (b : bool) (h : heap) (r : ref) :
  nth_error h r = Some (StrList []) ->
  analyze_sentiment x b (Some r) h = analyze_sentiment x b None h /\
  exists text : string,
    analyze_sentiment x b None h = Some (text, h) /\
    contains "focusing on aspects" text = contains "focusing on aspects" x.
Proof.
  intros Hr.
  destruct analyze_sentiment_shape as (framework & Hfw & H).
  destruct (H x b) as [Hnone Hsome].
  split.
  - rewrite (Hsome h r [] Hr), Hnone. reflexivity.
  - eexists. split; [apply Hnone|].
    assert (Hf : contains "focusing on aspects" framework = false).
    { apply (contains_false_trans "aspects"); [reflexivity | exact Hfw]. }
    destruct b.
    + change (sentiment_opening ++ ("r/" ++ x) ++ "." ++ framework)
        with ("Please analyze the sentiment and emotional tone in Reddit discussions about r"
              ++ String "/" (x ++ String "." framework)).
      rewrite !contains_foreign by reflexivity.
      rewrite Hf, orb_false_r. reflexivity.
    + replace (sentiment_opening ++ ("topic '" ++ x ++ "'") ++ "." ++ framework)
        with ("Please analyze the sentiment and emotional tone in Reddit discussions about topic "
              ++ String "'" (x ++ String "'" ("." ++ framework)))
        by (unfold sentiment_opening; cbn [append]; now rewrite !append_assoc).
      rewrite !contains_foreign by reflexivity.
      assert (Hd : contains "focusing on aspects" ("." ++ framework) = false).
      { change ("." ++ framework) with (EmptyString ++ String "." framework).
        rewrite contains_foreign by reflexivity. exact Hf. }
      rewrite Hd, orb_false_r. reflexivity.
Qed.

Lemma analyze_sentiment_empty_aspects_witness :
  analyze_sentiment "python" false (Some 0) [StrList []]
  = analyze_sentiment "python" false None [StrList []] /\
  exists text : string,
    analyze_sentiment "python" false None [StrList []]
    = Some (text, [StrList []]) /\
    contains "focusing on aspects" text = contains "focusing on aspects" "python".
Proof.
  exact (analyze_sentiment_empty_aspects "python" false [StrList []] 0 eq_refl).
Defined.

(** Against C9 as it is worded: the topic is put into the text as it is,
    so a topic that has the words "focusing on aspects" brings them into
    the request although the list of aspects is empty. *)
Lemma analyze_sentiment_topic_has_fragment :
  returned_text (analyze_sentiment "focusing on aspects" false (Some 0))
    [StrList []]
  = returned_text (analyze_sentiment "focusing on aspects" false None)
      [StrList []] /\
  option_map (contains "focusing on aspects")
    (returned_text (analyze_sentiment "focusing on aspects" false (Some 0))
       [StrList []]) = Some true.
Proof. vm_compute. split; reflexivity. Qed.

(* ================================================================== *)
(** ** [compare_communities] *)

(** The request is the opening, the compared set, a fixed part, the
    [repr] of the list of names, a fixed part that ends with the header of
    the dimensions, one bullet line per rendered aspect, and a fixed part
    that starts with the header of the analysis structure.  The heap grows
    by the list of defaults when that list is needed, and is otherwise left
    as it was. *)
Lemma compare_communities_shape :
  exists middle before_bullets after_bullets : string,
    (exists rest, middle = nl ++ rest) /\
    (exists m, before_bullets = m ++ dimensions_header) /\
    (exists c, after_bullets = structure_header ++ c) /\
    forall (h : heap) (s : ref) (x : option ref)
           (names : list string) (given : option (list string)),
      nth_error h s = Some (StrList names) ->
      given_at h x given ->
      compare_communities s x h
      = Some (comparison_opening ++ compared_set names ++ middle
              ++ repr_list names ++ before_bullets
              ++ bullet_lines (rendered_aspects given) ++ after_bullets,
              (h ++ allocated given)%list).
Proof.
  do 3 eexists. split; [|split; [|split]]; cycle 3.
  - intros h s x names given Hs Hx.
    destruct x as [r|], given as [items|]; simpl in Hx; try contradiction.
    + py_unfold compare_communities.
      rewrite (read_strs_at _ _ _ Hx).
      destruct items as [|i items]; cbv beta iota delta [negb].
      * rewrite (read_strs_at _ _ _ (nth_error_kept _ _ _ _ Hs)).
        unfold read_strs. rewrite nth_error_fresh.
        cbv beta iota delta [rendered_aspects allocated].
        split_text. reflexivity.
      * rewrite (read_strs_at _ _ _ Hs), (read_strs_at _ _ _ Hx).
        cbv beta iota delta [rendered_aspects allocated].
        rewrite app_nil_r. split_text. reflexivity.
    + py_unfold compare_communities. cbv beta iota delta [negb].
      rewrite (read_strs_at _ _ _ (nth_error_kept _ _ _ _ Hs)).
      unfold read_strs. rewrite nth_error_fresh.
      cbv beta iota delta [rendered_aspects allocated].
      split_text. reflexivity.
  - apply prefix_split. vm_compute. reflexivity.
  - split_off_suffix.
  - apply prefix_split. vm_compute. reflexivity.
Qed.

(** The same, read around the bullet lines: what stands before them
    depends on the names only and starts with the opening and the compared
    set; what stands after them is fixed. *)
Lemma compare_communities_layout :
  exists (before : list string -> string) (after : string),
    (forall names, exists rest,
        before names = comparison_opening ++ compared_set names ++ nl ++ rest) /\
    forall (h : heap) (s : ref) (x : option ref)
           (names : list string) (given : option (list string)),
      nth_error h s = Some (StrList names) ->
      given_at h x given ->
      compare_communities s x h
      = Some (before names ++ dimensions_header
              ++ bullet_lines (rendered_aspects given)
              ++ structure_header ++ after,
              (h ++ allocated given)%list).
Proof.
  destruct compare_communities_shape
    as (middle & bb & ab & [rest Hrest] & [m Hm] & [c Hc] & H).
  exists (fun names =>
            comparison_opening ++ compared_set names ++ middle
            ++ repr_list names ++ m), c.
  split.
  - intros names. exists (rest ++ repr_list names ++ m).
    now rewrite Hrest, !append_assoc.
  - intros h s x names given Hs Hx.
    rewrite (H h s x names given Hs Hx), Hm, Hc.
    now rewrite !append_assoc.
Qed.

(** C2.  A non-empty [comparison_aspects] is rendered as it is given: one
    bullet line per item, in the order of the list, repeated items
    repeated, between the header of the dimensions and the header of the
    analysis structure, and the heap is left as it was.  An empty list is
    not rendered as given: the body takes it for a missing argument and
    renders the five defaults, from a list that it allocates. *)
Theorem supplied_aspects :
  exists (before : list string -> string) (after : string),
    forall (h : heap) (s r : ref) (names aspects : list string),
      nth_error h s = Some (StrList names) ->
      nth_error h r = Some (StrList aspects) ->
      (aspects <> [] ->
       compare_communities s (Some r) h
       = Some (before names ++ dimensions_header ++ bullet_lines aspects
               ++ structure_header ++ after, h)) /\
      (aspects = [] ->
       compare_communities s (Some r) h
       = Some (before names ++ dimensions_header
               ++ bullet_lines default_comparison_aspects
               ++ structure_header ++ after,
               (h ++ [StrList default_comparison_aspects])%list)).
Proof.
  destruct compare_communities_layout as (before & after & _ & H).
  exists before, after. intros h s r names aspects Hs Hr.
  pose proof (H h s (Some r) names (Some aspects) Hs Hr) as E.
  split; intros Ha.
  - destruct aspects as [|a aspects]; [now elim Ha|].
    rewrite E. cbn [rendered_aspects allocated]. now rewrite app_nil_r.
  - subst aspects. exact E.
Qed.

Lemma supplied_aspects_witness :
  exists before after : string,
    compare_communities 0 (Some 1)
      [StrList ["a"; "b"]; StrList ["tone"; "size"; "tone"]]
    = Some (before ++ dimensions_header
            ++ "   - tone" ++ nl ++ "   - size" ++ nl ++ "   - tone"
            ++ structure_header ++ after,
            [StrList ["a"; "b"]; StrList ["tone"; "size"; "tone"]]).
Proof.
  destruct supplied_aspects as (before & after & H).
  exists (before ["a"; "b"]), after.
  refine (proj1 (H [StrList ["a"; "b"]; StrList ["tone"; "size"; "tone"]]
                   0 1 ["a"; "b"] ["tone"; "size"; "tone"] eq_refl eq_refl) _).
  discriminate.
Defined.

(** Against C2 as it is worded: an empty [comparison_aspects] is not
    rendered as an empty list of bullets; the five defaults are. *)
Lemma compare_communities_empty_aspects :
  let out :=
    returned_text (compare_communities 0 (Some 1)) [StrList ["a"]; StrList []] in
  option_map (contains (dimensions_header ++ bullet_lines [] ++ structure_header))
    out = Some false /\
  option_map (contains (dimensions_header
                        ++ bullet_lines default_comparison_aspects
                        ++ structure_header)) out = Some true /\
  out = returned_text (compare_communities 0 None) [StrList ["a"]; StrList []].
Proof. vm_compute. repeat split. Qed.


(* ================================================================== *)
(** ** Omitted aspects *)

(** C1.  When [comparison_aspects] is omitted, [compare_communities]
    renders the five default aspects as bullet lines under the header of
    the dimensions, after naming the compared set; for the names [a] and
    [b] the compared set reads [r/a, r/b].  When [aspects] is omitted,
    [analyze_sentiment] enumerates no aspects at all: the target is
    followed at once by the full stop and a fixed framework in which the
    word "aspects" does not occur. *)
Theorem omitted_aspects (h : heap) (s : ref) (names : list string) :
  nth_error h s = Some (StrList names) ->
  (exists text : string,
     compare_communities s None h
     = Some (text, (h ++ [StrList default_comparison_aspects])%list) /\
     String.prefix (comparison_opening ++ compared_set names ++ nl) text = true /\
     contains (dimensions_header
               ++ "   - content focus" ++ nl
               ++ "   - community culture" ++ nl
               ++ "   - moderation style" ++ nl
               ++ "   - expertise level" ++ nl
               ++ "   - engagement patterns"
               ++ structure_header) text = true) /\
  option_map (contains ("Reddit communities: r/a, r/b" ++ nl))
    (returned_text (compare_communities 0 None) [StrList ["a"; "b"]]) = Some true /\
  (exists framework : string,
     contains "aspects" framework = false /\
     forall (x : string) (b : bool) (h' : heap),
       analyze_sentiment x b None h'
       = Some (sentiment_opening
               ++ (if b then "r/" ++ x else "topic '" ++ x ++ "'")
               ++ "." ++ framework, h')).
Proof.
  intros Hs. split; [|split].
  - destruct compare_communities_layout as (before & after & Hb & H).
    destruct (Hb names) as [rest Hrest].
    eexists. split; [exact (H h s None names None Hs I)|]. split.
    + rewrite Hrest.
      match goal with
      | |- String.prefix ?n ((_ ++ _ ++ _ ++ ?z) ++ ?y) = true =>
          replace ((comparison_opening ++ compared_set names ++ nl ++ z) ++ y)
            with (n ++ z ++ y) by now rewrite !append_assoc
      end.
      apply prefix_app.
    + apply contains_skip.
      change (bullet_lines (rendered_aspects None))
        with ("   - content focus" ++ nl
              ++ "   - community culture" ++ nl
              ++ "   - moderation style" ++ nl
              ++ "   - expertise level" ++ nl
              ++ "   - engagement patterns").
      apply contains_spec. exists EmptyString, after.
      now rewrite !append_assoc.
  - vm_compute. reflexivity.
  - destruct analyze_sentiment_shape as (framework & Hf & H).
    exists framework. split; [exact Hf|].
    intros x b h'. exact (proj1 (H x b) h').
Qed.

Lemma omitted_aspects_witness :
  exists text : string,
    compare_communities 0 None [StrList ["a"; "b"]]
    = Some (text, [StrList ["a"; "b"]; StrList default_comparison_aspects]) /\
    String.prefix (comparison_opening ++ "r/a, r/b" ++ nl) text = true /\
    contains (dimensions_header
              ++ "   - content focus" ++ nl
              ++ "   - community culture" ++ nl
              ++ "   - moderation style" ++ nl
              ++ "   - expertise level" ++ nl
              ++ "   - engagement patterns"
              ++ structure_header) text = true.
Proof.
  exact (proj1 (omitted_aspects [StrList ["a"; "b"]] 0 ["a"; "b"] eq_refl)).
Defined.

(** Against C1 as it is worded: for [analyze_sentiment] no default list
    stands in for omitted [aspects].  The request for the topic [python]
    has no occurrence of the word "aspects", and no non-empty list of
    aspects renders the same text as the omitted argument does. *)
Lemma analyze_sentiment_has_no_default_aspects :
  option_map (contains "aspects")
    (returned_text (analyze_sentiment "python" false None) []) = Some false /\
  ~ exists d : list string,
      d <> [] /\
      returned_text (analyze_sentiment "python" false (Some 0)) [StrList d]
      = returned_text (analyze_sentiment "python" false None) [StrList d].
Proof.
  split; [vm_compute; reflexivity|].
  intros (d & Hd & E).
  destruct analyze_sentiment_shape as (framework & _ & H).
  destruct (H "python" false) as [Hnone Hsome].
  unfold returned_text in E.
  rewrite (Hsome [StrList d] 0 d eq_refl), Hnone in E.
  destruct d as [|a d]; [now apply Hd|].
  apply (f_equal (fun o => match o with Some t => t | None => EmptyString end)) in E.
  cbv beta iota in E.
  apply append_cancel_l, append_cancel_l in E.
  cbn [append] in E. discriminate E.
Qed.

(* ================================================================== *)
(** ** Purity *)

Lemma deref_at (h : heap) (r : ref) (items : list string) :
  deref h r = Some items -> nth_error h r = Some (StrList items).
Proof.
  unfold deref. destruct (nth_error h r) as [[l|l]|]; congruence.
Qed.

Lemma deref_opt_given (h : heap) (x : option ref) (v : option (list string)) :
  deref_opt h x = Some v -> given_at h x v.
Proof.
  destruct x as [r|]; simpl.
  - destruct (deref h r) as [l|] eqn:D; simpl; [|discriminate].
    intros [= <-]. now apply deref_at.
  - now intros [= <-].
Qed.

Lemma get_started_run :
  exists msgs : list PromptMessage,
    forall h : heap,
      get_started h = Some (List.length h, (h ++ [MsgList msgs])%list).
Proof. eexists. intros h. reflexivity. Qed.

Lemma messages_of_fresh (m : Py ref) (h : heap) (items : list PromptMessage) :
  m h = Some (List.length h, (h ++ [MsgList items])%list) ->
  messages_of m h = Some (MessageSequence items, (h ++ [MsgList items])%list).
Proof.
  intros E. unfold messages_of, bind, read_msgs, ret.
  now rewrite E, nth_error_fresh.
Qed.

Lemma text_of_run (m : Py string) (h h' : heap) (text : string) :
  m h = Some (text, h') -> text_of m h = Some (PlainText text, h').
Proof. intros E. unfold text_of, bind, ret. now rewrite E. Qed.

(** What a call hands back and what it adds to the heap are functions of
    the values of its arguments. *)
Lemma render_by_values :
  exists (out : Call (list string) -> Rendered)
         (added : Call (list string) -> heap),
    forall (c : Call ref) (h : heap) (v : Call (list string)),
      argument_values h c = Some v ->
      render c h = Some (out v, (h ++ added v)%list).
Proof.
  destruct get_started_run as (started & Hstarted).
  destruct analyze_sentiment_shape as (framework & _ & Hsent).
  destruct compare_communities_shape as (mid & bb & ab & _ & _ & _ & Hcmp).
  destruct citation_guide_run as (intro & req & ex & closing & _ & _ & _ & Hcite).
  exists (fun v =>
    match v with
    | GetStarted => MessageSequence started
    | ResearchTopic t d r n => PlainText (research_topic t d r n)
    | AnalyzeSentiment x b a =>
        PlainText (sentiment_opening
                   ++ (if b then "r/" ++ x else "topic '" ++ x ++ "'")
                   ++ match a with
                      | Some (i :: items) =>
                          " focusing on aspects: " ++ join ", " (i :: items)
                      | _ => EmptyString
                      end
                   ++ "." ++ framework)
    | CompareCommunities names given =>
        PlainText (comparison_opening ++ compared_set names ++ mid
                   ++ repr_list names ++ bb
                   ++ bullet_lines (rendered_aspects given) ++ ab)
    | TrendingAnalysis c w m => PlainText (trending_analysis c w m)
    | DeepDive t r p c => PlainText (deep_dive t r p c)
    | CitationGuide b style =>
        MessageSequence ([intro style; req] ++ (if b then [ex] else [])
                         ++ [closing])
    end).
  exists (fun v =>
    match v with
    | GetStarted => [MsgList started]
    | CompareCommunities _ given => allocated given
    | CitationGuide b style =>
        [MsgList ([intro style; req] ++ (if b then [ex] else []) ++ [closing])]
    | _ => []
    end).
  intros c h v Hv. destruct c; cbn [argument_values render] in *.
  - injection Hv as <-. apply messages_of_fresh, Hstarted.
  - injection Hv as <-. apply text_of_run. unfold ret. now rewrite app_nil_r.
  - destruct (deref_opt h aspects) as [a|] eqn:D; [|discriminate].
    injection Hv as <-. apply deref_opt_given in D.
    apply text_of_run. rewrite app_nil_r.
    destruct (Hsent subreddit_or_topic is_subreddit) as [Hnone Hsome].
    destruct aspects as [r|], a as [items|]; simpl in D; try contradiction.
    + rewrite (Hsome h r items D). now destruct items.
    + apply Hnone.
  - destruct (deref h subreddits) as [names|] eqn:Ds; [|discriminate].
    destruct (deref_opt h comparison_aspects) as [a|] eqn:D; [|discriminate].
    injection Hv as <-. apply deref_at in Ds. apply deref_opt_given in D.
    apply text_of_run. apply (Hcmp h subreddits comparison_aspects names a Ds D).
  - injection Hv as <-. apply text_of_run. unfold ret. now rewrite app_nil_r.
  - injection Hv as <-. apply text_of_run. unfold ret. now rewrite app_nil_r.
  - injection Hv as <-. apply messages_of_fresh, Hcite.
Qed.

(** Lists that were in the heap before a call are there after it. *)
Lemma argument_values_kept (c : Call ref) (h g : heap) (v : Call (list string)) :
  argument_values h c = Some v -> argument_values (h ++ g)%list c = Some v.
Proof.
  assert (K : forall r items, deref h r = Some items ->
                              deref (h ++ g)%list r = Some items).
  { intros r items D. apply deref_at in D. unfold deref.
    now rewrite (nth_error_kept _ g _ _ D). }
  assert (Ko : forall x a, deref_opt h x = Some a ->
                           deref_opt (h ++ g)%list x = Some a).
  { intros [r|] a; simpl; [|trivial].
    destruct (deref h r) as [l|] eqn:D; simpl; [|discriminate].
    intros [= <-]. now rewrite (K _ _ D). }
  destruct c; cbn [argument_values]; trivial.
  - destruct (deref_opt h aspects) as [a|] eqn:D; [|discriminate].
    now rewrite (Ko _ _ D).
  - destruct (deref h subreddits) as [s|] eqn:Ds; [|discriminate].
    destruct (deref_opt h comparison_aspects) as [a|] eqn:D; [|discriminate].
    now rewrite (K _ _ Ds), (Ko _ _ D).
Qed.

(** C3.  Every template is a function of the values of its arguments.
    Two calls whose arguments have the same values, made in any two
    heaps, both return, hand back the same output, and leave each heap as
    it was but for objects added at its end.  In particular a call made a
    second time, in the heap that the first call left, hands back the
    output of the first. *)
Theorem templates_are_pure
  (c1 c2 : Call ref) (h1 h2 : heap) (v : Call (list string)) :
  argument_values h1 c1 = Some v ->
  argument_values h2 c2 = Some v ->
  exists (out : Rendered) (g1 g2 g1' : heap),
    render c1 h1 = Some (out, (h1 ++ g1)%list) /\
    render c2 h2 = Some (out, (h2 ++ g2)%list) /\
    render c1 (h1 ++ g1)%list = Some (out, ((h1 ++ g1) ++ g1')%list).
Proof.
  intros H1 H2. destruct render_by_values as (out & added & H).
  exists (out v), (added v), (added v), (added v).
  repeat split.
  - exact (H c1 h1 v H1).
  - exact (H c2 h2 v H2).
  - apply H. now apply argument_values_kept.
Qed.

Lemma templates_are_pure_witness :
  exists (out : Rendered) (g1 g2 g1' : heap),
    render (CompareCommunities 0 (Some 1))
      [StrList ["a"; "b"]; StrList ["tone"]]
    = Some (out, ([StrList ["a"; "b"]; StrList ["tone"]] ++ g1)%list) /\
    render (CompareCommunities 2 (Some 0))
      [StrList ["tone"]; StrList []; StrList ["a"; "b"]]
    = Some (out, ([StrList ["tone"]; StrList []; StrList ["a"; "b"]] ++ g2)%list) /\
    render (CompareCommunities 0 (Some 1))
      ([StrList ["a"; "b"]; StrList ["tone"]] ++ g1)%list
    = Some (out, (([StrList ["a"; "b"]; StrList ["tone"]] ++ g1) ++ g1')%list).
Proof.
  exact (templates_are_pure
           (CompareCommunities 0 (Some 1)) (CompareCommunities 2 (Some 0))
           [StrList ["a"; "b"]; StrList ["tone"]]
           [StrList ["tone"]; StrList []; StrList ["a"; "b"]]
           (CompareCommunities ["a"; "b"] (Some ["tone"]))
           eq_refl eq_refl).
Defined.

(* ================================================================== *)
(** ** Further properties of the templates *)

(** *** Finding lines in a rendered text *)

Lemma prefix_refl (s : string) : String.prefix s s = true.
Proof.
  induction s as [|c s IH]; simpl; [reflexivity|].
  destruct (ascii_dec c c) as [_|ne]; [exact IH | now elim ne].
Qed.

Lemma prefix_cong (a n s : string) :
  String.prefix n s = true -> String.prefix (a ++ n) (a ++ s) = true.
Proof.
  intros H. induction a as [|c a IH]; simpl; [exact H|].
  destruct (ascii_dec c c) as [_|ne]; [exact IH | now elim ne].
Qed.

Lemma contains_prefix_of (n s : string) :
  String.prefix n s = true -> contains n s = true.
Proof.
  intros H. destruct (prefix_split _ _ H) as [rest ->].
  apply contains_spec. now exists EmptyString, rest.
Qed.

(** Looks for a run of whole lines in a text that is given line by line:
    the run starts at the line at hand, or further down. *)
Ltac starts_here :=
  apply contains_prefix_of;
  repeat apply prefix_cong;
  first [ apply prefix_app | apply prefix_refl ].

Ltac find_lines :=
  cbv beta zeta delta [lines join]; cbn [String.concat];
  repeat first [ solve [starts_here] | apply contains_skip ].

(* ================================================================== *)
(** *** [trending_analysis] *)

(** X1.  A missing category and an empty one are rendered alike, as
    "across all topics"; a non-empty category is rendered as
    "in <category>".  The category shows in the first line only: what
    follows that line depends on the time window and the threshold. *)
Theorem trending_analysis_category :
  exists rest : string -> Z -> string,
    forall (category : option string) (time_window : string) (min_engagement : Z),
      trending_analysis category time_window min_engagement
      = ("Please identify and analyze trending discussions on Reddit"
         ++ match category with
            | Some (String a c) => " in " ++ String a c
            | Some EmptyString | None => " across all topics"
            end
         ++ " from the past " ++ time_window ++ ".")
        ++ nl ++ rest time_window min_engagement.
Proof.
  eexists (fun w m => _). intros category w m.
  unfold trending_analysis, lines, join. cbn [String.concat].
  destruct category as [[|a c]|]; cbv beta iota zeta delta [truthy_str str_opt];
    reflexivity.
Qed.


(* ================================================================== *)
(** *** [deep_dive] *)

(** X3.  The historical range shows in the first line only.  What follows
    depends on the topic and the two targets, and its first search of the
    historical mining always asks for the past year, whatever the range. *)
Theorem deep_dive_range_in_heading_only :
  exists rest : string -> Z -> Z -> string,
    forall (topic historical_range : string)
           (min_posts_to_analyze min_comments_to_analyze : Z),
      deep_dive topic historical_range min_posts_to_analyze min_comments_to_analyze
      = ("I'll conduct an exhaustive deep-dive analysis on '" ++ topic
         ++ "' covering " ++ historical_range ++ " of Reddit history.")
        ++ nl ++ rest topic min_posts_to_analyze min_comments_to_analyze /\
      contains (lines [
        "**Wave 3 - Historical Mining**";
        "- search_all_reddit('" ++ topic ++ "', time_filter='year', limit=50)";
        "- search_all_reddit('" ++ topic ++ "', time_filter='month', limit=25) for recent";
        "- search_all_reddit('" ++ topic ++ "', sort='top', limit=25) for influential posts";
        ""
      ]) (rest topic min_posts_to_analyze min_comments_to_analyze) = true.
Proof.
  eexists (fun t p c => _). intros topic range p c. split.
  - unfold deep_dive, lines, join. cbn [String.concat]. reflexivity.
  - cbv beta. find_lines.
Qed.


(* ================================================================== *)
(** *** [research_topic] *)

(** X5.  [include_nsfw] picks the clause that ends the first sentence and
    changes nothing else: what stands before the clause and what stands
    after it do not depend on the flag. *)
Theorem research_topic_nsfw_clause :
  exists after : string -> string -> string -> string,
    forall (topic depth time_range : string) (include_nsfw : bool),
      research_topic topic depth time_range include_nsfw
      = "I'll conduct a " ++ depth ++ " Reddit research analysis on '" ++ topic
        ++ "' covering the past " ++ time_range ++ ", "
        ++ (if include_nsfw then "including NSFW communities"
            else "excluding NSFW content")
        ++ after topic depth time_range.
Proof.
  eexists (fun t d r => _). intros topic depth time_range include_nsfw.
  unfold research_topic, lines, join. cbn [String.concat]. cbv zeta.
  lazymatch goal with |- _ = ?r => set (R := r) end.
  rewrite !append_assoc. subst R. reflexivity.
Qed.

(** X6.  The topic, the depth and the time range of the heading are the
    ones handed to the tools: the discovery of Phase 1 is called with the
    topic and the depth, the search of Phase 3 with the topic and the time
    range as its time filter. *)
Theorem research_topic_tool_calls
  (topic depth time_range : string) (include_nsfw : bool) :
  let text := research_topic topic depth time_range include_nsfw in
  contains (lines [
    "### Phase 1: Community Discovery";
    "- Use discover_reddit_resources('" ++ topic ++ "', discovery_depth='" ++ depth
      ++ "') to find 8-15 relevant subreddits";
    "- Document confidence scores and community sizes for prioritization";
    ""
  ]) text = true /\
  contains (lines [
    "### Phase 3: Broad Search Expansion";
    "- Execute search_all_reddit('" ++ topic ++ "', time_filter='" ++ time_range
      ++ "', limit=25)";
    "- Capture posts that might not appear in discovered communities";
    ""
  ]) text = true.
Proof. cbv zeta. unfold research_topic. split; find_lines. Qed.

(* ================================================================== *)
(** *** [analyze_sentiment] *)

(** X7.  A non-empty list of aspects is rendered between the target and
    the full stop, as " focusing on aspects: " and the items in their
    order, separated by a comma and a space; the list is read and left as
    it was. *)
Theorem analyze_sentiment_supplied_aspects :
  exists framework : string,
    forall (x : string) (b : bool) (h : heap) (r : ref) (items : list string),
      nth_error h r = Some (StrList items) ->
      items <> [] ->
      analyze_sentiment x b (Some r) h
      = Some (sentiment_opening
              ++ (if b then "r/" ++ x else "topic '" ++ x ++ "'")
              ++ " focusing on aspects: " ++ join ", " items
              ++ "." ++ framework, h).
Proof.
  destruct analyze_sentiment_shape as (framework & _ & H).
  exists framework. intros x b h r items Hr Hne.
  rewrite (proj2 (H x b) h r items Hr).
  destruct items as [|i items]; [now elim Hne|].
  now rewrite !append_assoc.
Qed.

Lemma analyze_sentiment_supplied_aspects_witness :
  exists framework : string,
    analyze_sentiment "python" true (Some 0) [StrList ["speed"; "typing"]]
    = Some (sentiment_opening ++ "r/python"
            ++ " focusing on aspects: " ++ "speed, typing"
            ++ "." ++ framework, [StrList ["speed"; "typing"]]).
Proof.
  destruct analyze_sentiment_supplied_aspects as (framework & H).
  exists framework.
  refine (H "python" true [StrList ["speed"; "typing"]] 0 ["speed"; "typing"]
            eq_refl _).
  discriminate.
Defined.

(* ================================================================== *)
(** *** [compare_communities] *)



(** X9.  The aspects are put into the bullet lines as they are.  So an
    aspect that has a line feed and the bullet mark in it is rendered as
    two aspects are: the two calls return the same text. *)
Theorem compare_communities_aspects_verbatim
  (h : heap) (s r1 r2 : ref) (names : list string) (a b : string) :
  nth_error h s = Some (StrList names) ->
  nth_error h r1 = Some (StrList [a; b]) ->
  nth_error h r2 = Some (StrList [a ++ nl ++ "   - " ++ b]) ->
  compare_communities s (Some r1) h = compare_communities s (Some r2) h.
Proof.
  intros Hs H1 H2.
  destruct compare_communities_shape as (mid & bb & ab & _ & _ & _ & H).
  rewrite (H h s (Some r1) names (Some [a; b]) Hs H1).
  rewrite (H h s (Some r2) names (Some [a ++ nl ++ "   - " ++ b]) Hs H2).
  cbv beta iota delta [rendered_aspects allocated bullet_lines join map].
  cbn [String.concat]. now rewrite <- (append_assoc "   - " a).
Qed.

Lemma compare_communities_aspects_verbatim_witness :
  compare_communities 0 (Some 1)
    [StrList ["a"]; StrList ["tone"; "size"]; StrList ["tone" ++ nl ++ "   - " ++ "size"]]
  = compare_communities 0 (Some 2)
      [StrList ["a"]; StrList ["tone"; "size"]; StrList ["tone" ++ nl ++ "   - " ++ "size"]].
Proof.
  exact (compare_communities_aspects_verbatim
           [StrList ["a"]; StrList ["tone"; "size"];
            StrList ["tone" ++ nl ++ "   - " ++ "size"]]
           0 1 2 ["a"] "tone" "size" eq_refl eq_refl eq_refl).
Defined.

(* ================================================================== *)
(** *** [citation_guide] *)

(** X10.  The citation style shows in the introduction only, which reads
    "Here's how to properly cite Reddit content using <style> citations:"
    and is the one message with the role [assistant]; the messages after
    it are fixed, carry the default role, and depend on the flag alone. *)
Theorem citation_guide_style_in_introduction :
  exists others : bool -> list PromptMessage,
    (forall b : bool, Forall (fun m => role m = default_role) (others b)) /\
    forall (include_examples : bool) (style : string) (h : heap),
      returned_messages (citation_guide include_examples style) h
      = Some ({| role := assistant;
                 content := "Here's how to properly cite Reddit content using "
                            ++ style ++ " citations:" |}
              :: others include_examples).
Proof.
  eexists (fun b : bool => if b then _ else _).
  split; cycle 1.
  - intros b style h. apply returned_messages_fresh.
    unfold citation_guide, bind, new_list, ret.
    destruct b; rewrite !append_msg_fresh; reflexivity.
  - intros [|]; repeat constructor.
Qed.

(** X11.  Every call builds a list of its own.  The list of a second call,
    whatever its arguments, is another object than the list that the first
    call returned, and the first list still holds the messages it held: it
    has not grown by the second call. *)
Theorem citation_guide_returns_new_list
  (b1 b2 : bool) (style1 style2 : string) (h : heap) :
  exists (r1 r2 : ref) (h1 h2 : heap) (msgs1 msgs2 : list PromptMessage),
    citation_guide b1 style1 h = Some (r1, h1) /\
    nth_error h1 r1 = Some (MsgList msgs1) /\
    citation_guide b2 style2 h1 = Some (r2, h2) /\
    r2 <> r1 /\
    nth_error h2 r2 = Some (MsgList msgs2) /\
    nth_error h2 r1 = Some (MsgList msgs1).
Proof.
  destruct citation_guide_run as (intro & req & ex & closing & _ & _ & _ & H).
  do 6 eexists. split; [apply H|]. split; [apply nth_error_fresh|].
  split; [apply H|]. split; [|split].
  - rewrite length_app. simpl. lia.
  - apply nth_error_fresh.
  - apply nth_error_kept, nth_error_fresh.
Qed.
